(** * Token counting for chat-completion requests (chrisdinn/tokens)

    A shallow embedding of the Go package [tokens]: [src/counter.go] and the
    other revision of the same file, [src/unnamed/part_002].  Both share the
    schema renderer ([formatFunctionDefinitions] and its helpers), which is
    embedded once; the functions that differ keep their Go names for
    [src/counter.go] and carry the suffix [V2] for [part_002].

    The external collaborators of the code are Section variables:
    - [encode], the tiktoken encoder ([c.tokenizer.Encode]); only the length
      of its result is used;
    - [unmarshal_object], [json.Unmarshal] into a [map[string]interface{}]
      ([None] on error);
    - [fmt_float], Go's [%v] on a [float64] (JSON numbers decode to
      [float64]);
    - [iter], the order in which a [range] over a Go map visits its
      entries.  Go randomises it on every [range] statement; one run of the
      program is modelled by one choice of [iter].

    Go's [int] is 64 bits wide; every count here is a sum of lengths of
    token sequences of in-memory strings, far below 2^63, so it is
    modelled as [Z] without wrap-around. *)

From Stdlib Require Import String Ascii List ZArith Bool Lia Numbers.DecimalString Permutation.
Import ListNotations.
Set Warnings "-register-all".
Open Scope string_scope.

(** ** Data model (go-openai types) *)

Record FunctionCall := mkFunctionCall {
  fc_Name : string;
  fc_Arguments : string
}.

Record ToolCall := mkToolCall {
  tc_ID : string;
  tc_Type : string;          (* openai.ToolType, a string type *)
  tc_Function : FunctionCall
}.

Record ChatCompletionMessage := mkMessage {
  Role : string;
  Content : string;
  Name : string;
  ToolCallID : string;
  ToolCalls : list ToolCall
}.

Definition ChatMessageRoleSystem := "system".
Definition ChatMessageRoleTool := "tool".
Definition ToolTypeFunction := "function".

(** [openai.ChatCompletionRequest.ToolChoice] has type [any]: either an
    [openai.ToolChoice] struct value or something else (the strings
    ["none"], ["auto"], ["required"], a pointer, ...). [None] is [nil]. *)
Inductive ToolChoiceAny :=
| TCStruct (kind : string) (function_name : string)
| TCOther (s : string).

Section Tokens.

(** A Go [float64] and its [%v] text. *)
Variable float64 : Type.
Variable fmt_float : float64 -> string.

(** A value decoded by [json.Unmarshal] into [interface{}]. Objects are
    Go maps, kept as association lists with distinct keys. *)
Inductive Value :=
| VNull
| VBool (b : bool)
| VNum (f : float64)
| VStr (s : string)
| VArr (l : list Value)
| VObj (m : list (string * Value)).

(** A tool definition; [fn_Parameters] is the map obtained by
    [json.Marshal] of [function.Parameters] followed by [json.Unmarshal]
    into [map[string]interface{}] (a nil map is the empty list). *)
Record Tool := mkTool {
  tool_Type : string;
  fn_Name : string;
  fn_Description : string;
  fn_Parameters : list (string * Value)
}.

Record ChatCompletionRequest := mkRequest {
  Messages : list ChatCompletionMessage;
  Tools : list Tool;
  ToolChoice : option ToolChoiceAny
}.

Record ChatCompletionChoice := mkChoice { choice_Message : ChatCompletionMessage }.
Record ChatCompletionResponse := mkResponse { Choices : list ChatCompletionChoice }.

Variable encode : string -> list Z.
Variable unmarshal_object : string -> option (list (string * Value)).
Variable iter : forall A : Type, list A -> list A.
Arguments iter {A} _.

(** ** Go helpers *)

(** [CountTokens]: [len(c.tokenizer.Encode(txt, nil, nil))]. *)
Definition CountTokens (txt : string) : Z := Z.of_nat (length (encode txt)).

(** [strings.Join]. *)
Fixpoint join (sep : string) (l : list string) : string :=
  match l with
  | [] => ""
  | [x] => x
  | x :: rest => x ++ sep ++ join sep rest
  end.

(** [strings.Repeat(" ", n)]. *)
Fixpoint spaces (n : nat) : string :=
  match n with
  | O => ""
  | S k => " " ++ spaces k
  end.

Definition nl := String (ascii_of_nat 10) "".
Definition dq := String (ascii_of_nat 34) "".

(** [m[key].(T)]: continue with [found v] when [key] is in the map, with
    [missing] otherwise.  Written in continuation style so that recursive
    calls on [v] are seen as structural. *)
Definition with_key {B} (key : string) (m : list (string * Value))
    (found : Value -> B) (missing : B) : B :=
  (fix go (l : list (string * Value)) : B :=
     match l with
     | [] => missing
     | (k, v) :: rest => if String.eqb k key then found v else go rest
     end) m.

(** Go's [fmt] prints the entries of a map sorted by key. *)
Fixpoint insert_by_key {A} (x : string * A) (l : list (string * A)) : list (string * A) :=
  match l with
  | [] => [x]
  | y :: rest => if String.leb (fst x) (fst y) then x :: l else y :: insert_by_key x rest
  end.

Definition sort_by_key {A} (l : list (string * A)) : list (string * A) :=
  fold_right insert_by_key [] l.

(** [fmt.Sprintf("%s", val)] ([s_verb = true]) and [fmt.Sprintf("%v", val)]
    ([s_verb = false]) of a decoded JSON value: [%s] of a number, a boolean
    or nil is the bad-verb text [%!s(T=v)]; slices print as [[a b]] and
    maps as [map[k:v]] with sorted keys, the verb applied to each element. *)
Fixpoint fmt_verb (s_verb : bool) (v : Value) {struct v} : string :=
  match v with
  | VStr s => s
  | VNum f => if s_verb then "%!s(float64=" ++ fmt_float f ++ ")" else fmt_float f
  | VBool b =>
      let t := if b then "true" else "false" in
      if s_verb then "%!s(bool=" ++ t ++ ")" else t
  | VNull => if s_verb then "%!s(<nil>)" else "<nil>"
  | VArr l => "[" ++ join " " (map (fmt_verb s_verb) l) ++ "]"
  | VObj m =>
      "map[" ++ join " " (map (fun kv => fst kv ++ ":" ++ snd kv)
                            (sort_by_key (map (fun kv => match kv with
                                                         | (k, x) => (k, fmt_verb s_verb x)
                                                         end) m))) ++ "]"
  end.

(** ** Schema renderer *)

(** The body of [formatObjectProperties], given the renderer [ft] used for
    each property's type.  [range properties] visits the entries in the
    order [iter]; the loop body is pure, so each entry's type is rendered
    first and the visiting order applied to the rendered entries. *)
Definition formatObjectProperties_with (ft : Value -> nat -> string)
    (p : list (string * Value)) (indent : nat) : string :=
  with_key "properties" p (fun pv =>
    match pv with
    | VObj properties =>
        let required :=
          with_key "required" p (fun r =>
            match r with
            | VArr l => flat_map (fun x => match x with VStr s => [s] | _ => [] end) l
            | _ => []
            end) [] in
        let entries :=
          map (fun kv => match kv with (key, prop) => (key, prop, ft prop indent) end)
              properties in
        let lines :=
          flat_map (fun e =>
            match e with
            | (key, VObj props, formattedType) =>
                let description :=
                  with_key "description" props
                    (fun d => match d with VStr s => s | _ => "" end) "" in
                let question := if existsb (String.eqb key) required then "" else "?" in
                app (if String.eqb description "" then [] else ["// " ++ description])
                    [key ++ question ++ ":" ++ formattedType ++ ","]
            | _ => []
            end) (iter entries) in
        join nl (map (fun line => spaces indent ++ line) lines)
    | _ => ""
    end) "".

Fixpoint formatType (v : Value) (indent : nat) {struct v} : string :=
  match v with
  | VObj props =>
      with_key "type" props (fun t =>
        match t with
        | VStr typ =>
            if String.eqb typ "string" then
              with_key "enum" props (fun e =>
                match e with
                | VArr enum => join " | " (map (fun val => dq ++ fmt_verb true val ++ dq) enum)
                | _ => "string"
                end) "string"
            else if String.eqb typ "array" then
              with_key "items" props (fun items =>
                match items with
                | VObj _ => formatType items indent ++ "[]"
                | _ => "any[]"
                end) "any[]"
            else if String.eqb typ "object" then
              with_key "properties" props (fun pr =>
                match pr with
                | VObj properties =>
                    "{" ++ nl ++ formatObjectProperties_with formatType properties (indent + 2)
                    ++ nl ++ "}"
                | _ => "{}"
                end) "{}"
            else if String.eqb typ "integer" || String.eqb typ "number" then
              with_key "enum" props (fun e =>
                match e with
                | VArr enum => join " | " (map (fmt_verb false) enum)
                | _ => "number"
                end) "number"
            else if String.eqb typ "boolean" then "boolean"
            else if String.eqb typ "null" then "null"
            else ""
        | _ => ""
        end) ""
  | _ => ""
  end.

Definition formatObjectProperties := formatObjectProperties_with formatType.

Definition formatFunctionDefinitions (tools : list Tool) : string :=
  let lines :=
    app ["# Tools"; "## functions"; "namespace functions {"]
    (app (flat_map (fun tool =>
         app (if String.eqb (fn_Description tool) "" then []
              else ["// " ++ fn_Description tool])
         (with_key "properties" (fn_Parameters tool) (fun pr =>
              match pr with
              | VObj (_ :: _) =>
                  ["type " ++ fn_Name tool ++ " = (_: {";
                   formatObjectProperties (fn_Parameters tool) 0;
                   "}) => any;"]
              | _ => ["type " ++ fn_Name tool ++ " = () => any;"]
              end) ["type " ++ fn_Name tool ++ " = () => any;"])) tools)
    ["} // namespace functions"]) in
  join nl lines.


(** ** [src/counter.go] *)

Definition tokensPerReqMessage : Z := 3.
Definition tokensPerToolCall : Z := 4.
Definition tokensPerName : Z := 1.
Definition tokensForMultiTool : Z := 13.

(** [formatValue]: strings and numbers as their [%v] text between double quotes,
    arrays of those element-wise, everything else (booleans, null, objects,
    nested arrays) as the empty quoted string. *)
Definition formatValue (value : Value) : string :=
  match value with
  | VStr s => dq ++ s ++ dq
  | VNum f => dq ++ fmt_float f ++ dq
  | VArr l =>
      "[" ++ join "," (map (fun element =>
                match element with
                | VStr s => dq ++ s ++ dq
                | VNum f => dq ++ fmt_float f ++ dq
                | _ => dq ++ dq
                end) l) ++ "]"
  | _ => dq ++ dq
  end.

Definition formatField (fieldName : string) (value : Value) (useQuotes : bool) : string :=
  let formattedValue := formatValue value in
  if useQuotes then dq ++ fieldName ++ dq ++ ": " ++ formattedValue
  else fieldName ++ ":" ++ formattedValue.

Definition stringifyObject (jsonObject : list (string * Value)) (useQuotes : bool) : string :=
  match jsonObject with
  | [(fieldName, value)] => "{" ++ formatField fieldName value useQuotes ++ "}" ++ nl
  | _ =>
      let properties :=
        map (fun kv => match kv with (fieldName, value) => formatField fieldName value useQuotes end)
            (iter jsonObject) in
      let lines := match properties with [] => [] | _ => [join ", " properties] end in
      "{" ++ join nl lines ++ "}" ++ nl
  end.

(** [formatArguments]; [None] is a non-nil [error]. *)
Definition formatArguments (arguments : string) : option string :=
  match unmarshal_object arguments with
  | None => None
  | Some [] => Some ("{}" ++ nl)
  | Some jsonObject => Some (stringifyObject jsonObject false)
  end.

Definition CountMessageTokens (message : ChatCompletionMessage) : Z :=
  let count := 0%Z in
  let count := (count + CountTokens (Role message))%Z in
  let count :=
    if String.eqb (Role message) ChatMessageRoleTool then
      match unmarshal_object (Content message) with
      | None => (count + CountTokens (Content message))%Z
      | Some contentJSON => (count + CountTokens (stringifyObject contentJSON true))%Z
      end
    else (count + CountTokens (Content message))%Z in
  let count :=
    fold_left (fun count tc =>
      let count := (count + tokensPerToolCall)%Z in
      let count := (count + CountTokens (tc_Type tc))%Z in
      if String.eqb (tc_Type tc) ToolTypeFunction then
        let count := (count + CountTokens (fc_Name (tc_Function tc)) * 2)%Z in
        match formatArguments (fc_Arguments (tc_Function tc)) with
        | None => count
        | Some args => (count + CountTokens args)%Z
        end
      else count) (ToolCalls message) count in
  let count :=
    if negb (Nat.eqb (length (ToolCalls message)) 0) && negb (String.eqb (Content message) "")
    then (count + 4)%Z else count in
  let count :=
    if negb (String.eqb (Name message) "")
    then (count + CountTokens (Name message) + tokensPerName)%Z else count in
  count.

(** The loop of [CountRequestTokens] that finds the first system message
    and appends the tool block to its content; [None] when there is no
    system message. *)
Fixpoint inject_first_system (block : string) (msgs : list ChatCompletionMessage)
    : option (list ChatCompletionMessage) :=
  match msgs with
  | [] => None
  | m :: rest =>
      if String.eqb (Role m) ChatMessageRoleSystem then
        Some (mkMessage (Role m) (Content m ++ nl ++ nl ++ block) (Name m)
                        (ToolCallID m) (ToolCalls m) :: rest)
      else option_map (cons m) (inject_first_system block rest)
  end.

(** The messages [req.Messages] holds inside [CountRequestTokens] after the
    tool injection, and the contents of the caller's backing array
    afterwards.  [req] is passed by value, but [req.Messages] is a slice
    sharing its array with the caller: [req.Messages[i].Content = ...]
    writes that array, while [append] of a new first element builds a new
    array and leaves the caller's alone. *)
Definition inject_tools (req : ChatCompletionRequest)
    : list ChatCompletionMessage * list ChatCompletionMessage :=
  match Tools req with
  | [] => (Messages req, Messages req)
  | _ =>
      let block := formatFunctionDefinitions (Tools req) in
      match inject_first_system block (Messages req) with
      | Some msgs => (msgs, msgs)
      | None =>
          (mkMessage ChatMessageRoleSystem block "" "" [] :: Messages req, Messages req)
      end
  end.

Definition count_tool_messages (msgs : list ChatCompletionMessage) : nat :=
  length (filter (fun m => String.eqb (Role m) ChatMessageRoleTool) msgs).

(** [CountRequestTokens] returns the count together with the contents of
    the caller's [req.Messages] array after the call. *)
Definition CountRequestTokens (req : ChatCompletionRequest)
    : Z * list ChatCompletionMessage :=
  let count := 0%Z in
  let count := (count + 3)%Z in
  let (msgs, caller) := inject_tools req in
  let count :=
    fold_left (fun count message =>
      (count + tokensPerReqMessage + CountMessageTokens message)%Z) msgs count in
  let toolMessages := count_tool_messages msgs in
  let count := if Nat.ltb 1 toolMessages then (count + tokensForMultiTool)%Z else count in
  (count, caller).

Definition CountRespTokens (resp : ChatCompletionResponse) : Z :=
  fold_left (fun count choice =>
    let m := choice_Message choice in
    let count := (count + CountMessageTokens m)%Z in
    let count := (count - CountTokens (Role m))%Z in
    let count := if negb (Nat.eqb (length (ToolCalls m)) 0) then (count - 1)%Z else count in
    if negb (Nat.eqb (length (ToolCalls m)) 0) && negb (String.eqb (Content m) "")
    then (count - 3)%Z else count) (Choices resp) 0%Z.

(** ** [src/unnamed/part_002] *)

Definition hex_digit (n : nat) : string :=
  String (ascii_of_nat (if Nat.ltb n 10 then 48 + n else 87 + n)) "".

(** One byte of [strconv.Quote] (the [%q] verb).  On ASCII bytes this is
    exactly what [%q] writes.  Bytes from 128 up are kept as they are,
    which is what [%q] does for valid UTF-8 of printable runes only: it
    writes [\xNN] for a byte of invalid UTF-8 and [\u]/[\U] escapes for a
    non-printable rune such as U+00A0.  Statements over this model either
    restrict to ASCII ([ascii_only]) or state that assumption. *)
Definition quote_char (c : ascii) : string :=
  let n := nat_of_ascii c in
  if Nat.eqb n 34 then "\" ++ dq
  else if Nat.eqb n 92 then "\\"
  else if Nat.eqb n 7 then "\a"
  else if Nat.eqb n 8 then "\b"
  else if Nat.eqb n 12 then "\f"
  else if Nat.eqb n 10 then "\n"
  else if Nat.eqb n 13 then "\r"
  else if Nat.eqb n 9 then "\t"
  else if Nat.eqb n 11 then "\v"
  else if Nat.ltb n 32 || Nat.eqb n 127 then
    "\x" ++ hex_digit (Nat.div n 16) ++ hex_digit (Nat.modulo n 16)
  else String c "".

Fixpoint quote_body (s : string) : string :=
  match s with
  | EmptyString => ""
  | String c rest => quote_char c ++ quote_body rest
  end.

(** [fmt.Sprintf("%q", s)] for a string [s]. *)
Definition go_quote (s : string) : string := dq ++ quote_body s ++ dq.

Definition formatFieldV2_with (fv : Value -> bool -> string)
    (fieldName : string) (value : Value) (useQuotes : bool) : string :=
  let formattedValue := fv value useQuotes in
  if useQuotes then go_quote fieldName ++ ":" ++ formattedValue
  else fieldName ++ ":" ++ formattedValue.

(** [stringifyObject] of [part_002]; the fields are formatted (a pure
    step) and then visited in the map order [iter]. *)
Definition stringifyObjectV2_with (fv : Value -> bool -> string)
    (jsonObject : list (string * Value)) (useQuotes : bool) : string :=
  match jsonObject with
  | [] => "{}"
  | _ =>
      let properties :=
        iter (map (fun kv => match kv with
                             | (fieldName, value) => formatFieldV2_with fv fieldName value useQuotes
                             end) jsonObject) in
      "{" ++ join "," properties ++ "}"
  end.

Fixpoint formatValueV2 (value : Value) (useQuotes : bool) {struct value} : string :=
  match value with
  | VStr v => go_quote v
  | VNum f => fmt_float f
  | VBool b => if b then "true" else "false"
  | VArr l => "[" ++ join "," (map (fun element => formatValueV2 element useQuotes) l) ++ "]"
  | VObj m => stringifyObjectV2_with formatValueV2 m useQuotes
  | VNull => "null"
  end.

Definition stringifyObjectV2 := stringifyObjectV2_with formatValueV2.

Definition countToolChoice (toolChoice : ToolChoiceAny) : Z :=
  match toolChoice with
  | TCStruct _ name =>
      CountTokens ("{" ++ nl ++ " " ++ dq ++ "name" ++ dq ++ ": " ++ dq ++ name ++ dq ++ nl ++ "}")
  | TCOther _ => 0%Z
  end.

Definition CountMessageTokensV2 (message : ChatCompletionMessage) : Z :=
  let count := 0%Z in
  let count := (count + CountTokens (Role message))%Z in
  let count :=
    if String.eqb (Role message) ChatMessageRoleTool then
      match unmarshal_object (Content message) with
      | None => (count + CountTokens (go_quote "text" ++ ": " ++ go_quote (Content message)))%Z
      | Some contentJSON => (count + CountTokens (stringifyObjectV2 contentJSON true))%Z
      end
    else (count + CountTokens (Content message))%Z in
  let count :=
    fold_left (fun count tc =>
      (count + CountTokens (dq ++ "name" ++ dq ++ ":" ++ go_quote (fc_Name (tc_Function tc))
                            ++ ", " ++ dq ++ "arguments" ++ dq ++ ":"
                            ++ go_quote (fc_Arguments (tc_Function tc))))%Z)
      (ToolCalls message) count in
  let count :=
    if negb (String.eqb (Name message) "")
    then (count + CountTokens (Name message) + tokensPerName)%Z else count in
  count.

Definition CountRequestTokensV2 (req : ChatCompletionRequest)
    : Z * list ChatCompletionMessage :=
  let count := 0%Z in
  let count := (count + 3)%Z in
  let (msgs, caller) := inject_tools req in
  let count :=
    fold_left (fun count message =>
      (count + tokensPerReqMessage + CountMessageTokensV2 message)%Z) msgs count in
  let toolMessages := count_tool_messages msgs in
  let count := if Nat.ltb 1 toolMessages then (count + tokensForMultiTool)%Z else count in
  let count :=
    match ToolChoice req with
    | Some tc => (count + countToolChoice tc)%Z
    | None => count
    end in
  (count, caller).

Definition CountResponseTokensV2 (resp : ChatCompletionResponse) : Z :=
  fold_left (fun count choice =>
    let m := choice_Message choice in
    let count := (count + CountMessageTokensV2 m)%Z in
    (count - CountTokens (Role m))%Z) (Choices resp) 0%Z.

(** [CountToolTokens] (identical in both files): the token count of the
    rendered tool block plus 3. *)
Definition CountToolTokens (tools : list Tool) : Z :=
  let txt := formatFunctionDefinitions tools in
  let tokens := encode txt in
  (Z.of_nat (length tokens) + 3)%Z.

End Tokens.

Arguments VNull {float64}.
Arguments VBool {float64} b.
Arguments VNum {float64} f.
Arguments VStr {float64} s.
Arguments VArr {float64} l.
Arguments VObj {float64} m.
Arguments mkTool {float64} _ _ _ _.
Arguments mkRequest {float64} _ _ _.

(** Updating one field of a message or a request, as a Go composite
    literal copy does. *)
Definition with_tool_calls (m : ChatCompletionMessage) (l : list ToolCall) : ChatCompletionMessage :=
  mkMessage (Role m) (Content m) (Name m) (ToolCallID m) l.

Definition with_tool_choice {float64} (req : ChatCompletionRequest float64)
    (tc : option ToolChoiceAny) : ChatCompletionRequest float64 :=
  mkRequest (Messages _ req) (Tools _ req) tc.

Definition with_messages {float64} (req : ChatCompletionRequest float64)
    (msgs : list ChatCompletionMessage) : ChatCompletionRequest float64 :=
  mkRequest msgs (Tools _ req) (ToolChoice _ req).

Definition sumZ (l : list Z) : Z := fold_right Z.add 0%Z l.

(** ** Concrete instances of the collaborators, for evaluation *)

(** [%v] of an integral [float64] below 1e21 prints its decimal digits. *)
Definition fmt_int (x : Z) : string := NilEmpty.string_of_int (Z.to_int x).

(** Go's map visiting orders used below: as inserted, and reversed. *)
Definition iter_fwd : forall A : Type, list A -> list A := fun A l => l.
Definition iter_rev : forall A : Type, list A -> list A := fun A l => rev l.

(** A small greedy tokenizer: one token per byte, except for the merged
    token [g,\nb]. *)
Definition merged_token : string := "g," ++ nl ++ "b".

Fixpoint toy_encode_fuel (fuel : nat) (s : string) : list Z :=
  match fuel with
  | O => []
  | S f =>
      match s with
      | EmptyString => []
      | String c rest =>
          if String.prefix merged_token s
          then 256%Z :: toy_encode_fuel f (substring (String.length merged_token)
                                              (String.length s) s)
          else Z.of_nat (nat_of_ascii c) :: toy_encode_fuel f rest
      end
  end.

Definition toy_encode (s : string) : list Z := toy_encode_fuel (String.length s) s.

(** A decoder that rejects every input. *)
Definition reject_json (s : string) : option (list (string * Value Z)) := None.

Definition without_tools {float64} (req : ChatCompletionRequest float64)
    : ChatCompletionRequest float64 :=
  mkRequest (Messages _ req) [] (ToolChoice _ req).

(** A message as the two revisions both count it: no tool calls, and a
    role other than ["tool"]. *)
Definition plain_message (m : ChatCompletionMessage) : Prop :=
  ToolCalls m = [] /\ Role m <> ChatMessageRoleTool.

(** Reading back a [%q] body: the escapes written by [quote_char]. *)
Definition hex_val (c : ascii) : nat :=
  let n := nat_of_ascii c in if Nat.leb 97 n then n - 87 else n - 48.

Definition unescape (k : nat) : nat :=
  if Nat.eqb k 97 then 7 else if Nat.eqb k 98 then 8
  else if Nat.eqb k 102 then 12 else if Nat.eqb k 110 then 10
  else if Nat.eqb k 114 then 13 else if Nat.eqb k 116 then 9
  else if Nat.eqb k 118 then 11 else k.

Fixpoint unquote_body (s : string) : string :=
  match s with
  | EmptyString => EmptyString
  | String a r =>
      if Nat.eqb (nat_of_ascii a) 92 then
        match r with
        | EmptyString => String a EmptyString
        | String e r' =>
            if Nat.eqb (nat_of_ascii e) 120 then
              match r' with
              | String h1 (String h2 r'') =>
                  String (ascii_of_nat (16 * hex_val h1 + hex_val h2)) (unquote_body r'')
              | _ => r'
              end
            else String (ascii_of_nat (unescape (nat_of_ascii e))) (unquote_body r')
        end
      else String a (unquote_body r)
  end.

(** The tokens [CountRequestTokens] of [part_002] adds for [req.ToolChoice]. *)
Definition tc_count (encode : string -> list Z) (tc : option ToolChoiceAny) : Z :=
  match tc with Some t => countToolChoice encode t | None => 0%Z end.

(** All bytes of [s] are ASCII: on such strings [quote_body] writes what
    [strconv.Quote] writes. *)
Definition ascii_only (s : string) : bool :=
  forallb (fun c => Nat.ltb (nat_of_ascii c) 128) (list_ascii_of_string s).

(** ** Concrete inputs *)

Definition tool_f : Tool Z := mkTool "function" "f" "" [].

Definition msg (role content : string) : ChatCompletionMessage :=
  mkMessage role content "" "" [].

Definition req_system_tool : ChatCompletionRequest Z :=
  mkRequest [msg "system" "S"] [tool_f] None.

Definition call (kind name args : string) : ToolCall :=
  mkToolCall "call_1" kind (mkFunctionCall name args).

Definition resp_tool_call : ChatCompletionResponse :=
  mkResponse [mkChoice (with_tool_calls (msg "assistant" "") [call "function" "f" "{}"])].

Definition tool_two_props : Tool Z :=
  mkTool "function" "f" ""
    [("type", VStr "object");
     ("properties", VObj [("a", VObj [("type", VStr "string")]);
                          ("b", VObj [("type", VStr "number")])])].

Definition req_two_props : ChatCompletionRequest Z :=
  mkRequest [msg "user" "hi"] [tool_two_props] None.

Definition node_nested : list (string * Value Z) :=
  [("type", VStr "object");
   ("properties", VObj [("city", VObj [("type", VStr "string")])])].

Definition tool_choice_fragment (name : string) : string :=
  "{" ++ nl ++ " " ++ dq ++ "name" ++ dq ++ ": " ++ dq ++ name ++ dq ++ nl ++ "}".

Definition req_tool_choice (tc : ToolChoiceAny) : ChatCompletionRequest Z :=
  mkRequest [msg "user" "hi"] [] (Some tc).

(** A Go string body read from left to right: a backslash escapes the
    character after it, and an unescaped double quote would end the
    string. [true] when no unescaped double quote occurs. *)
Fixpoint no_bare_quote (s : string) : bool :=
  match s with
  | EmptyString => true
  | String c rest =>
      if Nat.eqb (nat_of_ascii c) 34 then false
      else if Nat.eqb (nat_of_ascii c) 92 then
        match rest with
        | EmptyString => true
        | String _ r => no_bare_quote r
        end
      else no_bare_quote rest
  end.

(** ** Properties *)

Section Proofs.

Context {float64 : Type} (fmt_float : float64 -> string) (encode : string -> list Z)
  (unmarshal_object : string -> option (list (string * Value float64)))
  (iter : forall A : Type, list A -> list A).

Local Abbreviation CT := (CountTokens encode).
Local Abbreviation CMT := (CountMessageTokens float64 fmt_float encode unmarshal_object iter).
Local Abbreviation CMT2 := (CountMessageTokensV2 float64 fmt_float encode unmarshal_object iter).
Local Abbreviation CRT := (CountRequestTokens float64 fmt_float encode unmarshal_object iter).
Local Abbreviation CRT2 := (CountRequestTokensV2 float64 fmt_float encode unmarshal_object iter).
Local Abbreviation inj := (inject_tools float64 fmt_float iter).
Local Abbreviation fmtArgs := (formatArguments float64 fmt_float unmarshal_object iter).

Lemma CountTokens_nonneg (s : string) : (0 <= CT s)%Z.
Proof. unfold CountTokens; lia. Qed.

Lemma sumZ_app (l1 l2 : list Z) : sumZ (l1 ++ l2) = (sumZ l1 + sumZ l2)%Z.
Proof. induction l1 as [|x l1 IH]; simpl; [reflexivity | rewrite IH; lia]. Qed.

(** A [for] loop that only adds to its counter adds the sum of the
    per-element increments. *)
Lemma sumZ_cons (x : Z) (l : list Z) : sumZ (x :: l) = (x + sumZ l)%Z.
Proof. reflexivity. Qed.

Lemma fold_left_additive {A} (F : Z -> A -> Z)
    (Hadd : forall c x, F c x = (c + F 0%Z x)%Z) (l : list A) (a : Z) :
  fold_left F l a = (a + sumZ (map (F 0%Z) l))%Z.
Proof.
  revert a; induction l as [|x l IH]; intro a; simpl.
  - lia.
  - rewrite IH, (Hadd a x); lia.
Qed.

Lemma sumZ_nonneg {A} (f : A -> Z) (Hf : forall x, (0 <= f x)%Z) (l : list A) :
  (0 <= sumZ (map f l))%Z.
Proof. induction l as [|x l IH]; simpl; [lia | specialize (Hf x); lia]. Qed.

(** The tokens one tool call adds in [CountMessageTokens]. *)
Lemma CountMessageTokens_insert_call (m : ChatCompletionMessage)
    (l1 l2 : list ToolCall) (tc : ToolCall) :
  CMT (with_tool_calls m (l1 ++ tc :: l2)) =
  (CMT (with_tool_calls m (l1 ++ l2))
   + (tokensPerToolCall + CT (tc_Type tc)
      + (if String.eqb (tc_Type tc) ToolTypeFunction then
           CT (fc_Name (tc_Function tc)) * 2
           + match fmtArgs (fc_Arguments (tc_Function tc)) with
             | None => 0 | Some args => CT args end
         else 0))
   + (if Nat.eqb (length (l1 ++ l2)) 0 && negb (String.eqb (Content m) "")
      then 4 else 0))%Z.
Proof.
  unfold CountMessageTokens, with_tool_calls; cbn [Role Content Name ToolCalls].
  rewrite !fold_left_additive
    by (intros c x; destruct (String.eqb (tc_Type x) ToolTypeFunction);
        [destruct (fmtArgs (fc_Arguments (tc_Function x))) |]; lia).
  rewrite !map_app, !sumZ_app; cbn [map]; rewrite sumZ_cons; cbv beta.
  set (s1 := sumZ (map _ l1)); set (s2 := sumZ (map _ l2)).
  rewrite !length_app; cbn [length].
  replace (Nat.eqb (length l1 + S (length l2)) 0) with false
    by (symmetry; apply Nat.eqb_neq; lia).
  destruct (Nat.eqb (length l1 + length l2) 0), (String.eqb (Content m) ""),
    (String.eqb (Name m) ""), (String.eqb (tc_Type tc) ToolTypeFunction),
    (fmtArgs (fc_Arguments (tc_Function tc))); cbn [andb negb]; lia.
Qed.

(** C10: a tool call whose type is not ["function"] adds exactly
    [4 + countText(type)] to [CountMessageTokens]: its name and arguments
    are not counted.  The last term is the message-level correction for a
    message with both content and tool calls, which applies once the call
    makes the list of tool calls non-empty. *)
Theorem C10_non_function_call_tokens (m : ChatCompletionMessage)
    (l1 l2 : list ToolCall) (tc : ToolCall)
    (Hkind : tc_Type tc <> ToolTypeFunction) :
  CMT (with_tool_calls m (l1 ++ tc :: l2)) =
  (CMT (with_tool_calls m (l1 ++ l2)) + (4 + CT (tc_Type tc))
   + (if Nat.eqb (length (l1 ++ l2)) 0 && negb (String.eqb (Content m) "")
      then 4 else 0))%Z.
Proof.
  rewrite CountMessageTokens_insert_call.
  apply String.eqb_neq in Hkind; rewrite Hkind.
  unfold tokensPerToolCall; lia.
Qed.

(** C4 (amended): a tool call of type ["function"] adds
    [4 + countText(type) + countText(name) * 2], plus the tokens of the
    unquoted-key rendering of its arguments when they decode as a JSON
    object, and nothing for the arguments when decoding fails. *)
Theorem C4_function_call_tokens (m : ChatCompletionMessage)
    (l1 l2 : list ToolCall) (tc : ToolCall)
    (Hkind : tc_Type tc = ToolTypeFunction) :
  CMT (with_tool_calls m (l1 ++ tc :: l2)) =
  (CMT (with_tool_calls m (l1 ++ l2))
   + (4 + CT (tc_Type tc) + CT (fc_Name (tc_Function tc)) * 2
      + match unmarshal_object (fc_Arguments (tc_Function tc)) with
        | None => 0
        | Some [] => CT ("{}" ++ nl)
        | Some jsonObject => CT (stringifyObject float64 fmt_float iter jsonObject false)
        end)
   + (if Nat.eqb (length (l1 ++ l2)) 0 && negb (String.eqb (Content m) "")
      then 4 else 0))%Z.
Proof.
  rewrite CountMessageTokens_insert_call, Hkind, String.eqb_refl.
  unfold formatArguments, tokensPerToolCall.
  destruct (unmarshal_object (fc_Arguments (tc_Function tc))) as [[|kv rest]|]; lia.
Qed.

(** C9: adding a tool call anywhere in a message's tool calls never
    decreases [CountMessageTokens]. *)
Theorem C9_add_tool_call_monotone (m : ChatCompletionMessage)
    (l1 l2 : list ToolCall) (tc : ToolCall) :
  (CMT (with_tool_calls m (l1 ++ l2)) <= CMT (with_tool_calls m (l1 ++ tc :: l2)))%Z.
Proof.
  rewrite CountMessageTokens_insert_call.
  pose proof (CountTokens_nonneg (tc_Type tc)).
  pose proof (CountTokens_nonneg (fc_Name (tc_Function tc))).
  unfold tokensPerToolCall.
  destruct (String.eqb (tc_Type tc) ToolTypeFunction);
    [destruct (fmtArgs (fc_Arguments (tc_Function tc))) as [args|];
     [pose proof (CountTokens_nonneg args)|]|];
    destruct (Nat.eqb (length (l1 ++ l2)) 0 && negb (String.eqb (Content m) "")); lia.
Qed.

Lemma inject_first_system_tool_count (block : string) (msgs ms : list ChatCompletionMessage) :
  inject_first_system block msgs = Some ms ->
  count_tool_messages ms = count_tool_messages msgs.
Proof.
  revert ms; induction msgs as [|m rest IH]; intros ms H; simpl in H.
  - discriminate.
  - destruct (String.eqb (Role m) ChatMessageRoleSystem).
    + injection H as <-; unfold count_tool_messages; cbn [filter Role].
      destruct (String.eqb (Role m) ChatMessageRoleTool); reflexivity.
    + destruct (inject_first_system block rest) as [ms'|] eqn:E; simpl in H;
        [injection H as <- | discriminate].
      unfold count_tool_messages in *; simpl.
      destruct (String.eqb (Role m) ChatMessageRoleTool); simpl; rewrite (IH ms'); auto.
Qed.

Lemma inject_tools_tool_count (req : ChatCompletionRequest float64) :
  count_tool_messages (fst (inj req)) = count_tool_messages (Messages _ req).
Proof.
  unfold inject_tools.
  destruct (Tools _ req); [reflexivity|].
  destruct (inject_first_system _ _) as [ms|] eqn:E.
  - apply (inject_first_system_tool_count _ _ _ E).
  - reflexivity.
Qed.

(** C2: [CountRequestTokens] adds the multi-tool correction, a flat 13,
    exactly when the request's messages contain two or more messages of
    role ["tool"]; the rest of the count does not depend on it. *)
Theorem C2_multi_tool_correction (req : ChatCompletionRequest float64) :
  fst (CRT req) =
  (fold_left (fun count message => count + tokensPerReqMessage + CMT message)
             (fst (inj req)) 3
   + (if Nat.leb 2 (count_tool_messages (Messages _ req)) then 13 else 0))%Z.
Proof.
  unfold CountRequestTokens.
  rewrite <- inject_tools_tool_count.
  destruct (inj req) as [msgs caller]; cbn [fst]; cbv zeta.
  change (0 + 3)%Z with 3%Z.
  change (Nat.ltb 1 (count_tool_messages msgs)) with (Nat.leb 2 (count_tool_messages msgs)).
  unfold tokensForMultiTool.
  destruct (Nat.leb 2 (count_tool_messages msgs)); lia.
Qed.

(** C3 (amended): [CountRespTokens] of [src/counter.go] sums, per choice,
    [countMessage - countText(role)], less 1 when the message has tool
    calls and 3 more when it also has content; [CountResponseTokens] of
    [part_002] sums [countMessage - countText(role)] alone. *)
Theorem C3_response_tokens (resp : ChatCompletionResponse) :
  CountRespTokens float64 fmt_float encode unmarshal_object iter resp =
  sumZ (map (fun choice =>
         let m := choice_Message choice in
         CMT m - CT (Role m)
         - (if Nat.eqb (length (ToolCalls m)) 0 then 0 else 1)
         - (if negb (Nat.eqb (length (ToolCalls m)) 0) && negb (String.eqb (Content m) "")
            then 3 else 0))%Z (Choices resp))
  /\
  CountResponseTokensV2 float64 fmt_float encode unmarshal_object iter resp =
  sumZ (map (fun choice =>
         CMT2 (choice_Message choice) - CT (Role (choice_Message choice)))%Z
       (Choices resp)).
Proof.
  split.
  - unfold CountRespTokens.
    rewrite fold_left_additive
      by (intros c x; destruct (Nat.eqb (length (ToolCalls (choice_Message x))) 0),
            (String.eqb (Content (choice_Message x)) ""); cbn [negb andb]; lia).
    rewrite Z.add_0_l; f_equal; apply map_ext; intro x.
    destruct (Nat.eqb (length (ToolCalls (choice_Message x))) 0),
      (String.eqb (Content (choice_Message x)) ""); cbn [negb andb]; lia.
  - unfold CountResponseTokensV2.
    rewrite fold_left_additive by (intros c x; lia).
    rewrite Z.add_0_l; f_equal; apply map_ext; intro x; lia.
Qed.

Lemma inject_tools_with_tool_choice (req : ChatCompletionRequest float64)
    (tc : option ToolChoiceAny) :
  inj (with_tool_choice req tc) = inj req.
Proof. destruct req; reflexivity. Qed.

(** C8 (amended): in [part_002], a tool choice holding an
    [openai.ToolChoice] value adds [countText] of the two-line fragment
    [{\n "name": "<name>"\n}]; any other tool choice adds nothing.  The
    [CountRequestTokens] of [src/counter.go] ignores the tool choice. *)
Theorem C8_tool_choice_tokens (req : ChatCompletionRequest float64) :
  fst (CRT2 req) =
  (fst (CRT2 (with_tool_choice req None))
   + match ToolChoice _ req with
     | Some (TCStruct _ name) =>
         CT ("{" ++ nl ++ " " ++ dq ++ "name" ++ dq ++ ": " ++ dq ++ name ++ dq ++ nl ++ "}")
     | _ => 0
     end)%Z
  /\ fst (CRT req) = fst (CRT (with_tool_choice req None)).
Proof.
  split.
  - unfold CountRequestTokensV2; rewrite inject_tools_with_tool_choice.
    destruct (inj req) as [msgs caller]; cbn [fst].
    destruct req as [ms ts [[k n|o]|]]; cbn [ToolChoice with_tool_choice countToolChoice]; lia.
  - unfold CountRequestTokens; rewrite inject_tools_with_tool_choice; reflexivity.
Qed.

End Proofs.

(** ** Concrete evaluations *)

(** C1 (failing input): with one tool and a system message, the caller's
    system message holds the tool block after [CountRequestTokens]
    returns, and a second call on the same request counts it twice. *)
Theorem C1_caller_request_mutated :
  snd (CountRequestTokens Z fmt_int toy_encode reject_json iter_fwd req_system_tool) =
    [msg "system" ("S" ++ nl ++ nl ++ formatFunctionDefinitions Z fmt_int iter_fwd [tool_f])]
  /\ snd (CountRequestTokens Z fmt_int toy_encode reject_json iter_fwd req_system_tool)
     <> Messages _ req_system_tool
  /\ fst (CountRequestTokens Z fmt_int toy_encode reject_json iter_fwd
           (with_messages req_system_tool
              (snd (CountRequestTokens Z fmt_int toy_encode reject_json iter_fwd
                      req_system_tool))))
     <> fst (CountRequestTokens Z fmt_int toy_encode reject_json iter_fwd req_system_tool).
Proof.
  split; [reflexivity|].
  split; vm_compute; discriminate.
Qed.

(** C3 (counterexample): a response whose only choice is a tool call
    counts one token less than [countMessage - countText(role)]. *)
Theorem C3_counterexample :
  CountRespTokens Z fmt_int toy_encode reject_json iter_fwd resp_tool_call <>
  sumZ (map (fun choice =>
         CountMessageTokens Z fmt_int toy_encode reject_json iter_fwd (choice_Message choice)
         - CountTokens toy_encode (Role (choice_Message choice)))%Z
       (Choices resp_tool_call)).
Proof. vm_compute; discriminate. Qed.

(** C4 (counterexample): the name of a tool call of type ["x"] is not
    counted. *)
Theorem C4_counterexample :
  CountMessageTokens Z fmt_int toy_encode reject_json iter_fwd
    (with_tool_calls (msg "assistant" "") [call "x" "f" "{}"]) <>
  (CountMessageTokens Z fmt_int toy_encode reject_json iter_fwd
     (with_tool_calls (msg "assistant" "") [])
   + (4 + CountTokens toy_encode "x" + CountTokens toy_encode "f" * 2))%Z.
Proof. vm_compute; discriminate. Qed.

Theorem C4_witness :
  tc_Type (call "function" "f" "{}") = ToolTypeFunction /\
  CountMessageTokens Z fmt_int toy_encode reject_json iter_fwd
    (with_tool_calls (msg "assistant" "") ([] ++ call "function" "f" "{}" :: [])) =
  (CountMessageTokens Z fmt_int toy_encode reject_json iter_fwd
     (with_tool_calls (msg "assistant" "") ([] ++ []))
   + (4 + CountTokens toy_encode (tc_Type (call "function" "f" "{}"))
      + CountTokens toy_encode (fc_Name (tc_Function (call "function" "f" "{}"))) * 2
      + match reject_json (fc_Arguments (tc_Function (call "function" "f" "{}"))) with
        | None => 0
        | Some [] => CountTokens toy_encode ("{}" ++ nl)
        | Some jsonObject =>
            CountTokens toy_encode (stringifyObject Z fmt_int iter_fwd jsonObject false)
        end)
   + (if Nat.eqb (length ([] ++ [] : list ToolCall)) 0
         && negb (String.eqb (Content (msg "assistant" "")) "")
      then 4 else 0))%Z.
Proof.
  split; [reflexivity|].
  apply (C4_function_call_tokens fmt_int toy_encode reject_json iter_fwd); reflexivity.
Defined.

Theorem C10_witness :
  tc_Type (call "x" "f" "{}") <> ToolTypeFunction /\
  CountMessageTokens Z fmt_int toy_encode reject_json iter_fwd
    (with_tool_calls (msg "assistant" "hi") ([] ++ call "x" "f" "{}" :: [])) =
  (CountMessageTokens Z fmt_int toy_encode reject_json iter_fwd
     (with_tool_calls (msg "assistant" "hi") ([] ++ []))
   + (4 + CountTokens toy_encode (tc_Type (call "x" "f" "{}")))
   + (if Nat.eqb (length ([] ++ [] : list ToolCall)) 0
         && negb (String.eqb (Content (msg "assistant" "hi")) "")
      then 4 else 0))%Z.
Proof.
  split; [vm_compute; discriminate|].
  apply (C10_non_function_call_tokens fmt_int toy_encode reject_json iter_fwd).
  vm_compute; discriminate.
Defined.

(** C5 (failing input): the two orders in which Go may visit the two
    properties of a tool's schema render different tool blocks, and the
    greedy tokenizer counts the request differently. *)
Theorem C5_map_order_changes_count :
  formatFunctionDefinitions Z fmt_int iter_fwd [tool_two_props] <>
  formatFunctionDefinitions Z fmt_int iter_rev [tool_two_props]
  /\ fst (CountRequestTokens Z fmt_int toy_encode reject_json iter_fwd req_two_props) <>
     fst (CountRequestTokens Z fmt_int toy_encode reject_json iter_rev req_two_props).
Proof. split; vm_compute; discriminate. Qed.

(** C6 (failing input): [formatValue] of [src/counter.go] writes a
    string between double quotes as it is, so the string [a"b] renders as
    ["a"b"], whose inner double quote is not escaped; the number 42
    renders quoted as ["42"], and [true] and null as an empty quoted
    string.  Both key modes of [formatField] carry these renderings. *)
Theorem C6_unescaped_internal_quote :
  formatValue Z fmt_int (VStr ("a" ++ dq ++ "b")) = dq ++ ("a" ++ dq ++ "b") ++ dq /\
  no_bare_quote ("a" ++ dq ++ "b") = false /\
  formatField Z fmt_int "k" (VStr ("a" ++ dq ++ "b")) false = "k:" ++ dq ++ "a" ++ dq ++ "b" ++ dq /\
  formatField Z fmt_int "k" (VStr ("a" ++ dq ++ "b")) true =
    dq ++ "k" ++ dq ++ ": " ++ dq ++ "a" ++ dq ++ "b" ++ dq /\
  formatValue Z fmt_int (VNum 42%Z) = dq ++ "42" ++ dq /\
  formatValue Z fmt_int (VBool true) = dq ++ dq /\
  formatValue Z fmt_int VNull = dq ++ dq.
Proof. repeat split; vm_compute; reflexivity. Qed.

(** C7 (failing input): an object property with a non-empty
    [properties] map renders as an empty pair of braces, because
    [formatType] passes the [properties] map itself to
    [formatObjectProperties], which then looks for a key named
    ["properties"] inside it. *)
Theorem C7_nested_object_lost :
  formatType Z fmt_int iter_fwd (VObj node_nested) 0 = "{" ++ nl ++ nl ++ "}"
  /\ formatObjectProperties Z fmt_int iter_fwd node_nested 2 = "  city?:string,"
  /\ formatType Z fmt_int iter_fwd (VObj node_nested) 0 <>
     "{" ++ nl ++ formatObjectProperties Z fmt_int iter_fwd node_nested 2 ++ nl ++ "}".
Proof. split; [reflexivity | split; [reflexivity | vm_compute; discriminate]]. Qed.

(** C8 (counterexample): [src/counter.go] adds nothing for a tool
    choice, and [part_002] adds nothing for the tool choice ["auto"]. *)
Theorem C8_counterexample :
  fst (CountRequestTokens Z fmt_int toy_encode reject_json iter_fwd
         (req_tool_choice (TCStruct "function" "f"))) <>
  (fst (CountRequestTokens Z fmt_int toy_encode reject_json iter_fwd
          (with_tool_choice (req_tool_choice (TCStruct "function" "f")) None))
   + CountTokens toy_encode (tool_choice_fragment "f"))%Z
  /\
  fst (CountRequestTokensV2 Z fmt_int toy_encode reject_json iter_fwd
         (req_tool_choice (TCOther "auto"))) <>
  (fst (CountRequestTokensV2 Z fmt_int toy_encode reject_json iter_fwd
          (with_tool_choice (req_tool_choice (TCOther "auto")) None))
   + CountTokens toy_encode (tool_choice_fragment ""))%Z.
Proof. split; vm_compute; discriminate. Qed.

(** ** Further properties of the code *)

Section Extras.

Context {float64 : Type} (fmt_float : float64 -> string) (encode : string -> list Z)
  (unmarshal_object : string -> option (list (string * Value float64)))
  (iter : forall A : Type, list A -> list A).

Local Abbreviation CT := (CountTokens encode).
Local Abbreviation CMT := (CountMessageTokens float64 fmt_float encode unmarshal_object iter).
Local Abbreviation CMT2 := (CountMessageTokensV2 float64 fmt_float encode unmarshal_object iter).
Local Abbreviation CRT := (CountRequestTokens float64 fmt_float encode unmarshal_object iter).
Local Abbreviation CRT2 := (CountRequestTokensV2 float64 fmt_float encode unmarshal_object iter).
Local Abbreviation inj := (inject_tools float64 fmt_float iter).
Local Abbreviation FFD := (formatFunctionDefinitions float64 fmt_float iter).

Ltac ct_nonneg :=
  repeat match goal with
  | |- context [CountTokens ?e ?s] =>
      lazymatch goal with
      | _ : (0 <= CountTokens e s)%Z |- _ => fail
      | _ => pose proof (CountTokens_nonneg e s)
      end
  end.

(** The role tokens, 4 per tool call and the 4 for content together with
    tool calls are a lower bound of [CountMessageTokens]. *)
Lemma CountMessageTokens_lower (m : ChatCompletionMessage) :
  (CT (Role m) + 4 * Z.of_nat (length (ToolCalls m))
   + (if negb (Nat.eqb (length (ToolCalls m)) 0) && negb (String.eqb (Content m) "")
      then 4 else 0) <= CMT m)%Z.
Proof.
  unfold CountMessageTokens.
  rewrite fold_left_additive
    by (intros c x; destruct (String.eqb (tc_Type x) ToolTypeFunction);
        [destruct (formatArguments _ _ _ _ (fc_Arguments (tc_Function x))) |]; lia).
  match goal with |- context [sumZ (map ?f (ToolCalls m))] =>
    assert (Hs : forall k, (4 * Z.of_nat (length k) <= sumZ (map f k))%Z);
    [intro k; induction k as [|x k IH]; cbn [map length]; [simpl; lia|];
     rewrite sumZ_cons; cbv beta;
     destruct (String.eqb (tc_Type x) ToolTypeFunction);
     [destruct (formatArguments _ _ _ _ (fc_Arguments (tc_Function x))) |];
     unfold tokensPerToolCall in *; ct_nonneg; lia | specialize (Hs (ToolCalls m))]
  end.
  destruct (String.eqb (Role m) ChatMessageRoleTool);
    [destruct (unmarshal_object (Content m)) |];
    destruct (negb (Nat.eqb (length (ToolCalls m)) 0) && negb (String.eqb (Content m) ""));
    destruct (negb (String.eqb (Name m) "")); unfold tokensPerName; ct_nonneg; lia.
Qed.

Lemma CountMessageTokensV2_lower (m : ChatCompletionMessage) : (CT (Role m) <= CMT2 m)%Z.
Proof.
  unfold CountMessageTokensV2.
  rewrite fold_left_additive by (intros c x; lia).
  match goal with |- context [sumZ (map ?f ?l)] =>
    assert (Hs : (0 <= sumZ (map f l))%Z) by (apply sumZ_nonneg; intro x; ct_nonneg; lia)
  end.
  destruct (String.eqb (Role m) ChatMessageRoleTool);
    [destruct (unmarshal_object (Content m)) |];
    destruct (negb (String.eqb (Name m) "")); unfold tokensPerName; ct_nonneg; lia.
Qed.

Lemma CountMessageTokens_nonneg (m : ChatCompletionMessage) : (0 <= CMT m)%Z.
Proof.
  pose proof (CountMessageTokens_lower m); pose proof (CountTokens_nonneg encode (Role m)).
  destruct (_ && _); lia.
Qed.

Lemma CountMessageTokensV2_nonneg (m : ChatCompletionMessage) : (0 <= CMT2 m)%Z.
Proof.
  pose proof (CountMessageTokensV2_lower m); pose proof (CountTokens_nonneg encode (Role m)); lia.
Qed.

Lemma fold_left_count_lower (F : ChatCompletionMessage -> Z)
    (HF : forall m, (0 <= F m)%Z) (l : list ChatCompletionMessage) (a : Z) :
  (a + 3 * Z.of_nat (length l) <= fold_left (fun count m => count + tokensPerReqMessage + F m) l a)%Z.
Proof.
  revert a; induction l as [|m l IH]; intro a; cbn [fold_left length]; [lia|].
  specialize (IH (a + tokensPerReqMessage + F m)%Z); specialize (HF m).
  unfold tokensPerReqMessage in *; lia.
Qed.

Lemma inject_tools_length (req : ChatCompletionRequest float64) :
  (length (Messages _ req) <= length (fst (inj req)))%nat.
Proof.
  unfold inject_tools.
  destruct (Tools _ req); [reflexivity|].
  destruct (inject_first_system _ _) as [ms|] eqn:E; cbn [fst length]; [|lia].
  revert ms E; induction (Messages _ req) as [|m rest IH]; intros ms E; cbn in E.
  - discriminate.
  - destruct (String.eqb (Role m) ChatMessageRoleSystem).
    + injection E as <-; reflexivity.
    + destruct (inject_first_system _ rest) as [ms'|]; cbn in E; [|discriminate].
      injection E as <-; cbn; specialize (IH ms' eq_refl); lia.
Qed.

(** X: both revisions of [CountRequestTokens] count at least the 3
    priming tokens and 3 tokens per message of the request. *)
Theorem X_request_count_lower_bound (req : ChatCompletionRequest float64) :
  (3 + 3 * Z.of_nat (length (Messages _ req)) <= fst (CRT req))%Z /\
  (3 + 3 * Z.of_nat (length (Messages _ req)) <= fst (CRT2 req))%Z.
Proof.
  pose proof (inject_tools_length req) as Hlen.
  split.
  - unfold CountRequestTokens; destruct (inj req) as [msgs caller]; cbn [fst] in *.
    pose proof (fold_left_count_lower CMT CountMessageTokens_nonneg msgs (0 + 3)%Z).
    destruct (Nat.ltb 1 (count_tool_messages msgs)); unfold tokensForMultiTool; lia.
  - unfold CountRequestTokensV2; destruct (inj req) as [msgs caller]; cbn [fst] in *.
    pose proof (fold_left_count_lower CMT2 CountMessageTokensV2_nonneg msgs (0 + 3)%Z).
    destruct (Nat.ltb 1 (count_tool_messages msgs)); unfold tokensForMultiTool;
      destruct (ToolChoice _ req) as [[k n|o]|]; cbn [countToolChoice]; ct_nonneg; lia.
Qed.

Local Abbreviation CTT := (CountToolTokens float64 fmt_float encode iter).
Local Abbreviation has_system :=
  (existsb (fun m => String.eqb (Role m) ChatMessageRoleSystem)).

Lemma inject_first_system_none (block : string) (msgs : list ChatCompletionMessage) :
  has_system msgs = false -> inject_first_system block msgs = None.
Proof.
  induction msgs as [|m rest IH]; cbn; [reflexivity|].
  destruct (String.eqb (Role m) ChatMessageRoleSystem); [discriminate|].
  intro H; rewrite (IH H); reflexivity.
Qed.

Lemma inject_first_system_app (block : string) (pre post : list ChatCompletionMessage)
    (m : ChatCompletionMessage) :
  has_system pre = false -> Role m = ChatMessageRoleSystem ->
  inject_first_system block (app pre (m :: post)) =
  Some (app pre (mkMessage (Role m) (Content m ++ nl ++ nl ++ block) (Name m)
                           (ToolCallID m) (ToolCalls m) :: post)).
Proof.
  intros Hpre Hm; induction pre as [|x pre IH]; cbn in *.
  - rewrite Hm; reflexivity.
  - destruct (String.eqb (Role x) ChatMessageRoleSystem); [discriminate|].
    rewrite (IH Hpre); reflexivity.
Qed.

Lemma CountRequestTokens_eq (req : ChatCompletionRequest float64) :
  CRT req =
  ((3 + sumZ (map (fun m => 3 + CMT m) (fst (inj req)))
    + (if Nat.ltb 1 (count_tool_messages (fst (inj req))) then 13 else 0))%Z,
   snd (inj req)).
Proof.
  unfold CountRequestTokens; destruct (inj req) as [msgs caller]; cbn [fst snd].
  rewrite fold_left_additive by (intros; lia).
  rewrite (map_ext _ (fun m => 3 + CMT m)%Z) by (intros; unfold tokensPerReqMessage; lia).
  unfold tokensForMultiTool.
  destruct (Nat.ltb 1 _); f_equal; lia.
Qed.

Lemma CountRequestTokensV2_eq (req : ChatCompletionRequest float64) :
  CRT2 req =
  ((3 + sumZ (map (fun m => 3 + CMT2 m) (fst (inj req)))
    + (if Nat.ltb 1 (count_tool_messages (fst (inj req))) then 13 else 0)
    + tc_count encode (ToolChoice _ req))%Z,
   snd (inj req)).
Proof.
  unfold CountRequestTokensV2; destruct (inj req) as [msgs caller]; cbn [fst snd].
  rewrite fold_left_additive by (intros; lia).
  rewrite (map_ext _ (fun m => 3 + CMT2 m)%Z) by (intros; unfold tokensPerReqMessage; lia).
  unfold tokensForMultiTool, tc_count.
  destruct (Nat.ltb 1 _); destruct (ToolChoice _ req); f_equal; lia.
Qed.

Lemma CountMessageTokens_system_block (b : string) :
  CMT (mkMessage ChatMessageRoleSystem b "" "" []) = (CT ChatMessageRoleSystem + CT b)%Z /\
  CMT2 (mkMessage ChatMessageRoleSystem b "" "" []) = (CT ChatMessageRoleSystem + CT b)%Z.
Proof.
  unfold CountMessageTokens, CountMessageTokensV2; cbn [Role Content Name ToolCalls fold_left length].
  change (String.eqb ChatMessageRoleSystem ChatMessageRoleTool) with false.
  change (String.eqb "" "") with true; cbn [negb andb Nat.eqb]; split; lia.
Qed.

(** X: with tools and no system message, [CountRequestTokens] counts the
    request without its tools plus [CountToolTokens] of the tools and the
    role of the prepended system message; the caller's messages are left
    as they were.  Both revisions. *)
Theorem X_tools_without_system_message (req : ChatCompletionRequest float64)
    (Hsys : has_system (Messages _ req) = false) (Htools : Tools _ req <> []) :
  fst (CRT req) = (fst (CRT (without_tools req)) + CTT (Tools _ req) + CT ChatMessageRoleSystem)%Z /\
  fst (CRT2 req) = (fst (CRT2 (without_tools req)) + CTT (Tools _ req) + CT ChatMessageRoleSystem)%Z /\
  snd (CRT req) = Messages _ req /\ snd (CRT2 req) = Messages _ req.
Proof.
  rewrite !CountRequestTokens_eq, !CountRequestTokensV2_eq.
  destruct req as [msgs tools tc]; cbn in Hsys, Htools.
  unfold inject_tools, without_tools, CountToolTokens; cbn [Tools Messages ToolChoice].
  destruct tools as [|t ts]; [congruence|].
  rewrite (inject_first_system_none _ _ Hsys); cbn [fst snd map].
  rewrite !sumZ_cons.
  change (count_tool_messages (mkMessage ChatMessageRoleSystem (FFD (t :: ts)) "" "" [] :: msgs))
    with (count_tool_messages msgs).
  destruct (CountMessageTokens_system_block (FFD (t :: ts))) as [E1 E2].
  rewrite E1, E2; cbv zeta; unfold CountTokens.
  repeat split; lia.
Qed.

(** X: with tools and a system message, [CountRequestTokens] appends the
    rendered tools to the content of the first system message, the
    caller's array holds that message afterwards, and the count is that of
    the modified messages without tools.  Both revisions. *)
Theorem X_tools_into_first_system_message (req : ChatCompletionRequest float64)
    (pre post : list ChatCompletionMessage) (m : ChatCompletionMessage)
    (Hmsgs : Messages _ req = app pre (m :: post)) (Hpre : has_system pre = false)
    (Hm : Role m = ChatMessageRoleSystem) (Htools : Tools _ req <> []) :
  let msgs' := app pre (mkMessage (Role m) (Content m ++ nl ++ nl ++ FFD (Tools _ req))
                                  (Name m) (ToolCallID m) (ToolCalls m) :: post) in
  snd (CRT req) = msgs' /\ snd (CRT2 req) = msgs' /\
  fst (CRT req) = fst (CRT (without_tools (with_messages req msgs'))) /\
  fst (CRT2 req) = fst (CRT2 (without_tools (with_messages req msgs'))).
Proof.
  intro msgs'.
  rewrite !CountRequestTokens_eq, !CountRequestTokensV2_eq.
  destruct req as [msgs tools tc]; cbn in Hmsgs, Htools |- *; subst msgs.
  unfold inject_tools, without_tools, with_messages; cbn [Tools Messages ToolChoice].
  destruct tools as [|t ts]; [congruence|].
  rewrite (inject_first_system_app _ _ _ _ Hpre Hm); cbn [fst snd].
  repeat split.
Qed.

Lemma response_fold_nonneg {A} (F : Z -> A -> Z) (Hadd : forall c x, F c x = (c + F 0%Z x)%Z)
    (Hx : forall x, (0 <= F 0%Z x)%Z) (l : list A) :
  (0 <= fold_left F l 0%Z)%Z.
Proof.
  rewrite fold_left_additive by exact Hadd.
  pose proof (sumZ_nonneg _ Hx l); lia.
Qed.

(** X: the corrections of [CountRespTokens] (the role, 1 for tool calls,
    3 for tool calls with content) never make a response count negative,
    and neither does the role correction of the later revision. *)
Theorem X_response_count_nonneg (resp : ChatCompletionResponse) :
  (0 <= CountRespTokens float64 fmt_float encode unmarshal_object iter resp)%Z /\
  (0 <= CountResponseTokensV2 float64 fmt_float encode unmarshal_object iter resp)%Z.
Proof.
  split; apply response_fold_nonneg.
  - intros c x; cbv zeta;
      destruct (negb (Nat.eqb (length (ToolCalls (choice_Message x))) 0));
      destruct (_ && _); lia.
  - intro x; cbv zeta.
    pose proof (CountMessageTokens_lower (choice_Message x)) as H.
    destruct (length (ToolCalls (choice_Message x))) as [|k]; cbn [Nat.eqb negb andb] in *;
      [|destruct (negb (String.eqb _ _))]; lia.
  - intros c x; cbv zeta; lia.
  - intro x; cbv zeta; pose proof (CountMessageTokensV2_lower (choice_Message x)); lia.
Qed.

Lemma plain_message_counts (m : ChatCompletionMessage) : plain_message m -> CMT m = CMT2 m.
Proof.
  intros [Hc Hr].
  unfold CountMessageTokens, CountMessageTokensV2; rewrite Hc; cbn [fold_left length Nat.eqb negb andb].
  apply String.eqb_neq in Hr; rewrite Hr; reflexivity.
Qed.

Lemma inject_first_system_plain (block : string) (msgs ms : list ChatCompletionMessage) :
  Forall plain_message msgs -> inject_first_system block msgs = Some ms -> Forall plain_message ms.
Proof.
  revert ms; induction msgs as [|m rest IH]; intros ms Hp H; cbn in H; [discriminate|].
  inversion Hp as [|? ? [Hc Hr] Hrest]; subst.
  destruct (String.eqb (Role m) ChatMessageRoleSystem).
  - injection H as <-; constructor; [split; assumption | assumption].
  - destruct (inject_first_system block rest) as [ms'|]; cbn in H; [|discriminate].
    injection H as <-; constructor; [split; assumption | exact (IH ms' Hrest eq_refl)].
Qed.

Lemma inject_tools_plain (req : ChatCompletionRequest float64) :
  Forall plain_message (Messages _ req) -> Forall plain_message (fst (inj req)).
Proof.
  intro Hp; unfold inject_tools.
  destruct (Tools _ req); [exact Hp|].
  destruct (inject_first_system _ _) as [ms|] eqn:E; cbn [fst].
  - exact (inject_first_system_plain _ _ _ Hp E).
  - constructor; [split; [reflexivity | discriminate] | exact Hp].
Qed.

(** X: on requests whose messages carry no tool calls and are not tool
    results, and which set no tool choice, the two revisions of
    [CountRequestTokens] agree. *)
Theorem X_revisions_agree_on_plain_requests (req : ChatCompletionRequest float64)
    (Hp : Forall plain_message (Messages _ req)) (Htc : ToolChoice _ req = None) :
  fst (CRT req) = fst (CRT2 req).
Proof.
  rewrite CountRequestTokens_eq, CountRequestTokensV2_eq, Htc; cbn [fst tc_count].
  pose proof (inject_tools_plain req Hp) as Hq.
  rewrite (map_ext_Forall _ _ (Forall_impl _ (fun m Hm => f_equal (Z.add 3) (plain_message_counts m Hm)) Hq)).
  lia.
Qed.

Lemma unquote_quote_char (c : ascii) (r : string) :
  unquote_body (quote_char c ++ r) = String c (unquote_body r).
Proof.
  destruct c as [[] [] [] [] [] [] [] []]; reflexivity.
Qed.

Lemma unquote_quote_body (s : string) : unquote_body (quote_body s) = s.
Proof.
  induction s as [|c s IH]; [reflexivity|].
  cbn [quote_body]; rewrite unquote_quote_char, IH; reflexivity.
Qed.

(** X: the body written by [%q] (as [quote_body] models it) reads back to
    the original string, escapes included. *)
Theorem X_quote_round_trip (s : string) : unquote_body (quote_body s) = s.
Proof. exact (unquote_quote_body s). Qed.

Lemma string_length_app (a b : string) : String.length (a ++ b) = String.length a + String.length b.
Proof. induction a as [|c a IH]; cbn; [reflexivity | rewrite IH; reflexivity]. Qed.

Lemma string_app_cancel_r (a b c : string) : a ++ c = b ++ c -> a = b.
Proof.
  revert b; induction a as [|x a IH]; intros [|y b] H; cbn in H.
  - reflexivity.
  - apply (f_equal String.length) in H; cbn in H; rewrite string_length_app in H; lia.
  - apply (f_equal String.length) in H; cbn in H; rewrite string_length_app in H; lia.
  - injection H as -> H; rewrite (IH b H); reflexivity.
Qed.

(** X: on ASCII strings, where [quote_body] is [strconv.Quote], the later
    revision renders distinct JSON strings as distinct text, in both
    quoting modes: [%q] loses nothing. *)
Theorem X_string_rendering_injective_v2 (s1 s2 : string) (q : bool)
    (Ha1 : ascii_only s1 = true) (Ha2 : ascii_only s2 = true)
    (H : formatValueV2 float64 fmt_float iter (VStr s1) q = formatValueV2 float64 fmt_float iter (VStr s2) q) :
  s1 = s2.
Proof.
  cbn [formatValueV2] in H; unfold go_quote, dq in H; cbn in H.
  injection H as H; apply string_app_cancel_r in H.
  rewrite <- (unquote_quote_body s1), <- (unquote_quote_body s2), H; reflexivity.
Qed.

Lemma join_length (sep : string) (l : list string) :
  String.length (join sep l) =
  fold_right Nat.add 0 (map String.length l) + String.length sep * (length l - 1).
Proof.
  induction l as [|x [|y l] IH]; [cbn; lia | cbn; lia |].
  change (join sep (x :: y :: l)) with (x ++ sep ++ join sep (y :: l)).
  rewrite !string_length_app, IH; cbn [map fold_right length]; lia.
Qed.

Lemma sum_nat_perm (l1 l2 : list nat) :
  Permutation l1 l2 -> fold_right Nat.add 0 l1 = fold_right Nat.add 0 l2.
Proof. induction 1; cbn; lia. Qed.

Lemma stringify_lines_length (props : list string) :
  String.length (join nl (match props with [] => [] | _ => [join ", " props] end)) =
  fold_right Nat.add 0 (map String.length props) + 2 * (length props - 1).
Proof.
  destruct props as [|x l]; [reflexivity|].
  change (join nl [join ", " (x :: l)]) with (join ", " (x :: l)).
  rewrite join_length; reflexivity.
Qed.

(** X: the map order only permutes the fields of [stringifyObject]: for
    any two visiting orders that are permutations the rendered text has the
    same length (the token count may still differ). *)
Theorem X_field_order_keeps_length
    (iter' : forall A : Type, list A -> list A)
    (iter_perm : forall A (l : list A), Permutation (iter A l) l)
    (iter_perm' : forall A (l : list A), Permutation (iter' A l) l)
    (obj : list (string * Value float64)) (q : bool) :
  String.length (stringifyObject float64 fmt_float iter obj q) =
  String.length (stringifyObject float64 fmt_float iter' obj q).
Proof.
  unfold stringifyObject.
  destruct obj as [|[k v] [|kv l]]; [| reflexivity |];
    cbv zeta; rewrite !string_length_app, !stringify_lines_length;
    match goal with |- context [map ?f (iter _ ?o)] =>
      assert (P : Permutation (map f (iter _ o)) (map f (iter' _ o)))
        by (apply Permutation_map; eapply Permutation_trans;
            [apply iter_perm | apply Permutation_sym, iter_perm'])
    end;
    rewrite (sum_nat_perm _ _ (Permutation_map String.length P)), (Permutation_length P);
    reflexivity.
Qed.

End Extras.

(** Instances of the properties above at concrete inputs. *)

Lemma iter_fwd_perm (A : Type) (l : list A) : Permutation (iter_fwd A l) l.
Proof. apply Permutation_refl. Qed.

Lemma iter_rev_perm (A : Type) (l : list A) : Permutation (iter_rev A l) l.
Proof. apply Permutation_sym, Permutation_rev. Qed.

Theorem X_tools_without_system_message_witness :
  existsb (fun m => String.eqb (Role m) ChatMessageRoleSystem) (Messages _ req_two_props) = false /\
  Tools _ req_two_props <> [] /\
  fst (CountRequestTokens Z fmt_int toy_encode reject_json iter_fwd req_two_props) =
  (fst (CountRequestTokens Z fmt_int toy_encode reject_json iter_fwd (without_tools req_two_props))
   + CountToolTokens Z fmt_int toy_encode iter_fwd (Tools _ req_two_props)
   + CountTokens toy_encode ChatMessageRoleSystem)%Z.
Proof.
  split; [reflexivity|]; split; [discriminate|].
  exact (proj1 (X_tools_without_system_message fmt_int toy_encode reject_json iter_fwd
                  req_two_props eq_refl ltac:(discriminate))).
Defined.

Theorem X_tools_into_first_system_message_witness :
  Messages _ req_system_tool = app [] (msg "system" "S" :: []) /\
  Role (msg "system" "S") = ChatMessageRoleSystem /\
  snd (CountRequestTokens Z fmt_int toy_encode reject_json iter_fwd req_system_tool) =
  [msg "system" ("S" ++ nl ++ nl ++ formatFunctionDefinitions Z fmt_int iter_fwd [tool_f])].
Proof.
  split; [reflexivity|]; split; [reflexivity|].
  exact (proj1 (X_tools_into_first_system_message fmt_int toy_encode reject_json iter_fwd
                  req_system_tool [] [] (msg "system" "S") eq_refl eq_refl eq_refl
                  ltac:(discriminate))).
Defined.

Theorem X_revisions_agree_on_plain_requests_witness :
  Forall plain_message (Messages _ req_two_props) /\ ToolChoice _ req_two_props = None /\
  fst (CountRequestTokens Z fmt_int toy_encode reject_json iter_fwd req_two_props) =
  fst (CountRequestTokensV2 Z fmt_int toy_encode reject_json iter_fwd req_two_props).
Proof.
  assert (Hp : Forall plain_message (Messages _ req_two_props))
    by (constructor; [split; [reflexivity | discriminate] | constructor]).
  split; [exact Hp|]; split; [reflexivity|].
  exact (X_revisions_agree_on_plain_requests fmt_int toy_encode reject_json iter_fwd
           req_two_props Hp eq_refl).
Defined.

Theorem X_string_rendering_injective_v2_witness :
  ascii_only ("a" ++ dq) = true /\ ascii_only ("a" ++ nl) = true /\
  formatValueV2 Z fmt_int iter_fwd (VStr ("a" ++ dq)) true =
  formatValueV2 Z fmt_int iter_fwd (VStr ("a" ++ dq)) true /\
  "a" ++ dq = "a" ++ dq /\
  (formatValueV2 Z fmt_int iter_fwd (VStr ("a" ++ dq)) false =
   formatValueV2 Z fmt_int iter_fwd (VStr ("a" ++ nl)) false -> "a" ++ dq = "a" ++ nl).
Proof.
  split; [reflexivity|]; split; [reflexivity|]; split; [reflexivity|]; split.
  - exact (X_string_rendering_injective_v2 fmt_int iter_fwd ("a" ++ dq) ("a" ++ dq) true
             eq_refl eq_refl eq_refl).
  - exact (X_string_rendering_injective_v2 fmt_int iter_fwd ("a" ++ dq) ("a" ++ nl) false
             eq_refl eq_refl).
Defined.

Theorem X_field_order_keeps_length_witness :
  String.length (stringifyObject Z fmt_int iter_fwd [("a", VStr "x"); ("bb", VNum 1%Z)] false) =
  String.length (stringifyObject Z fmt_int iter_rev [("a", VStr "x"); ("bb", VNum 1%Z)] false).
Proof.
  exact (X_field_order_keeps_length fmt_int iter_fwd iter_rev iter_fwd_perm iter_rev_perm
           [("a", VStr "x"); ("bb", VNum 1%Z)] false).
Defined.
